(** * mdconvwk: the [GET /html] conversion handler of [src/index.ts]

    A shallow embedding of the single route of the worker, of its
    top-level error handler and of [isValidUrl], followed by the
    properties of the request pipeline: parameter presence, URL
    validation, upstream error translation, content-type and size
    gating, interpretation of the converter's result, and the mapping of
    failures to status codes and messages.

    JavaScript strings are sequences of UTF-16 code units; here a
    [string] of the Standard Library stands for such a sequence, one
    character per code unit, so that [String.length] is the [.length] of
    the source.  Numbers that the handler touches are integers and are
    kept in [Z]. *)

From Stdlib Require Import ZArith NArith List Bool Lia.
From Stdlib Require Import Strings.Ascii Strings.String.
Import ListNotations.

Open Scope string_scope.
Open Scope Z_scope.

(** ** Strings as the runtime provides them *)

Module Js.

(** [s.includes(sub)]: [sub] starts at some position of [s]. The
    comparison is code unit by code unit, hence case-sensitive. *)
Fixpoint includes (s sub : string) : bool :=
  String.prefix sub s
  || match s with
     | EmptyString => false
     | String _ rest => includes rest sub
     end.

(** ASCII lower-casing of one code unit, and of a string: what the
    [Headers] class applies to header names. *)
Definition lower_unit (c : ascii) : ascii :=
  let n := N_of_ascii c in
  if (65 <=? n)%N && (n <=? 90)%N then ascii_of_N (n + 32) else c.

Fixpoint toLowerCase (s : string) : string :=
  match s with
  | EmptyString => EmptyString
  | String c rest => String (lower_unit c) (toLowerCase rest)
  end.

(** [s.repeat(count)] for a one-unit string, as the tests use it to
    build large bodies. *)
Definition repeat (c : ascii) (count : N) : string :=
  N.iter count (String c) EmptyString.

(** [s.length], as an integer. *)
Definition length (s : string) : Z := Z.of_nat (String.length s).

End Js.

(** ** Headers

    A [Headers] object: names are kept lower-cased, [get] and [set]
    compare names case-insensitively, [set] replaces an existing entry. *)

Definition Headers := list (string * string).

Fixpoint Headers_lookup (h : Headers) (lname : string) : option string :=
  match h with
  | [] => None
  | (k, v) :: rest => if String.eqb k lname then Some v else Headers_lookup rest lname
  end.

Definition Headers_get (h : Headers) (name : string) : option string :=
  Headers_lookup h (Js.toLowerCase name).

Fixpoint Headers_replace (h : Headers) (lname value : string) : Headers :=
  match h with
  | [] => [(lname, value)]
  | (k, v) :: rest =>
      if String.eqb k lname then (k, value) :: rest
      else (k, v) :: Headers_replace rest lname value
  end.

Definition Headers_set (h : Headers) (name value : string) : Headers :=
  Headers_replace h (Js.toLowerCase name) value.

(** [new Headers(init)] from an object literal: the entries in order. *)
Definition Headers_new (init : list (string * string)) : Headers :=
  fold_left (fun h kv => Headers_set h (fst kv) (snd kv)) init [].

(** ** Values that can be thrown *)

(** What a promise of the runtime (the global [fetch], [Response.text],
    the AI binding) or a constructor of the runtime ([new URL]) can
    reject or throw with.  None of them knows the [HTTPException] class
    of the framework, which only the handler constructs. *)
Inductive JsError : Type :=
| DOMException (name message : string)
| OtherError (name message : string)   (* Error, TypeError, ... *)
| NonError (value : string).           (* a thrown value that is no Error *)

Inductive Thrown : Type :=
| HTTPException (status : Z) (message : string)
| Runtime (e : JsError).

Definition instanceof_DOMException (e : JsError) : bool :=
  match e with DOMException _ _ => true | _ => false end.

(** [error.name]; [undefined] for a value that has none. *)
Definition error_name (e : JsError) : option string :=
  match e with
  | DOMException n _ => Some n
  | OtherError n _ => Some n
  | NonError _ => None
  end.

(** [x === "literal"] for a possibly undefined [x]. *)
Definition strict_eq (x : option string) (lit : string) : bool :=
  match x with Some s => String.eqb s lit | None => false end.

Inductive Outcome (A : Type) : Type :=
| Returned (a : A)
| Threw (e : Thrown).
Arguments Returned {A} a.
Arguments Threw {A} e.

(** The outcome of awaiting a promise of the runtime. *)
Inductive Settled (A : Type) : Type :=
| Resolved (a : A)
| Rejected (e : JsError).
Arguments Resolved {A} a.
Arguments Rejected {A} e.

(** ** The collaborators *)

Record URL : Type := { protocol : string; hostname : string }.

(** The part of a fetched [Response] that the handler reads. *)
Record Response : Type := {
  ok : bool;
  status : Z;
  statusText : string;
  headers : Headers;
  text : Settled string          (* [await resp.text()] *)
}.

Record Blob : Type := { blobParts : list string; blobType : string }.

(** [new Blob(parts, {type})]: the type given is kept only when all its
    code units are in the range U+0020 to U+007E, and is then
    lower-cased; otherwise the blob's type is the empty string. *)
Definition printable_unit (c : ascii) : bool :=
  let n := N_of_ascii c in (32 <=? n)%N && (n <=? 126)%N.

Fixpoint all_printable (s : string) : bool :=
  match s with
  | EmptyString => true
  | String c rest => printable_unit c && all_printable rest
  end.

Definition Blob_type (type : string) : string :=
  if all_printable type then Js.toLowerCase type else "".

Definition new_Blob (parts : list string) (type : string) : Blob :=
  {| blobParts := parts; blobType := Blob_type type |}.

Record ConversionInput : Type := { name : string; blob : Blob }.

Record ConversionResponse : Type := { data : string }.

(** What [await c.env.AI.toMarkdown(...)] can resolve to: the tests also
    resolve it to [null]. *)
Inductive MarkdownResult : Type :=
| JsNull
| JsUndefined
| JsArray (items : list ConversionResponse).

Record Env : Type := {
  (** [new URL(s)]: [None] when the constructor throws a TypeError. *)
  parseURL : string -> option URL;
  (** the global [fetch]. *)
  fetch : string -> Settled Response;
  (** [c.env.AI.toMarkdown]. *)
  toMarkdown : list ConversionInput -> Settled MarkdownResult
}.

(** The inbound request: the decoded query pairs of [c.req.url]. *)
Record Request : Type := { searchParams : list (string * string) }.

(** [url.searchParams.get(name)]: the first value under [name], else
    [null]. *)
Fixpoint searchParams_get (q : list (string * string)) (key : string)
  : option string :=
  match q with
  | [] => None
  | (k, v) :: rest => if String.eqb k key then Some v else searchParams_get rest key
  end.

(** ** Effects: a trace of the calls made, and exceptions *)

Inductive Event : Type :=
| CallFetch (input : string)
| CallText
| CallToMarkdown (files : list ConversionInput)
| ConsoleError (label : option string) (err : Thrown).

Definition Trace := list Event.

Definition M (A : Type) : Type := Trace -> Outcome A * Trace.

Definition ret {A} (a : A) : M A := fun t => (Returned a, t).

Definition throw {A} (e : Thrown) : M A := fun t => (Threw e, t).

Definition bind {A B} (m : M A) (k : A -> M B) : M B :=
  fun t =>
    match m t with
    | (Returned a, t') => k a t'
    | (Threw e, t') => (Threw e, t')
    end.

Definition emit (ev : Event) : M unit := fun t => (Returned tt, (t ++ [ev])%list).

(** [await p] where calling [p] is recorded as [ev]. *)
Definition await {A} (ev : Event) (p : Settled A) : M A :=
  fun t =>
    match p with
    | Resolved a => (Returned a, (t ++ [ev])%list)
    | Rejected e => (Threw (Runtime e), (t ++ [ev])%list)
    end.

(** [try { body } catch (error) { handler }]. *)
Definition try_catch {A} (body : M A) (handler : Thrown -> M A) : M A :=
  fun t =>
    match body t with
    | (Returned a, t') => (Returned a, t')
    | (Threw e, t') => handler e t'
    end.

Notation "x <- m ;; k" := (bind m (fun x => k))
  (at level 61, m at next level, right associativity).
Notation "m ;;; k" := (bind m (fun _ => k))
  (at level 61, right associativity).

(** ** Responses of the worker *)

Inductive HttpResponse : Type :=
| TextResponse (status : Z) (headers : Headers) (body : string)
| JsonResponse (status : Z) (error : string) (status_field : Z).

Definition TEXT_PLAIN : string := "text/plain; charset=UTF-8".

(** Modelled from the spec: [c.text] is the framework's (Hono's
    [Context.text]), not in the repository.  Its result on a fresh
    context with an init object that has headers and no status: status
    200, the init headers, and then [Content-Type] set to the
    framework's text type, which replaces a [Content-Type] given in the
    init.  The spec's success contract and the repository's test
    ("should successfully convert HTML to Markdown") both state the
    resulting [text/plain; charset=UTF-8]. *)
Definition c_text (body : string) (init_headers : list (string * string))
  : HttpResponse :=
  TextResponse 200
    (Headers_set (Headers_new init_headers) "Content-Type" TEXT_PLAIN)
    body.

(** [new Response(body, {status})] with a body that is not null, which
    is how the framework builds its responses: the constructor throws a
    RangeError for a status outside 200..599 and a TypeError for a null
    body status (204, 205 and 304 in that range). *)
Definition null_body_status (code : Z) : bool :=
  (code =? 204) || (code =? 205) || (code =? 304).

Definition Response_init_error (code : Z) : option JsError :=
  if (code <? 200) || (599 <? code) then
    Some (OtherError "RangeError" "The status provided is outside the range 200 to 599")
  else if null_body_status code then
    Some (OtherError "TypeError" "Response with null body status cannot have body")
  else None.

(** [c.json({error, status}, code)]: the JSON response, unless the
    [Response] constructor refuses the status.  The headers the
    framework puts on a JSON response are not modelled. *)
Definition c_json (error : string) (status_field : Z) (code : Z)
  : M HttpResponse :=
  match Response_init_error code with
  | Some e => throw (Runtime e)
  | None => ret (JsonResponse code error status_field)
  end.

(** ** The source *)

(** [new URL(s)] as a computation. *)
Definition new_URL (env : Env) (s : string) : M URL :=
  match parseURL env s with
  | Some u => ret u
  | None => throw (Runtime (OtherError "TypeError" "Invalid URL"))
  end.

(** [isValidUrl], lines 116-123. *)
Definition isValidUrl (env : Env) (urlString : string) : bool :=
  match parseURL env urlString with
  | Some url =>
      String.eqb (protocol url) "http:" || String.eqb (protocol url) "https:"
  | None => false
  end.

(** The argument of [c.env.AI.toMarkdown], lines 53-58: one document,
    named after the host, holding the body under the upstream content
    type. *)
Definition conversionInput (url : URL) (body contentType : string)
  : list ConversionInput :=
  [ {| name := hostname url ++ ".html";
       blob := new_Blob [body] contentType |} ].

(** The handler of [app.get("/html", ...)], lines 11-88. [!urlParam]
    and [!contentType] hold for [null] and for the empty string. *)
Definition html (env : Env) (req : Request) : M HttpResponse :=
  match searchParams_get (searchParams req) "url" with
  | None => throw (HTTPException 400 "URL parameter is required")
  | Some urlParam =>
  if String.eqb urlParam "" then
    throw (HTTPException 400 "URL parameter is required")
  else if negb (isValidUrl env urlParam) then
    throw (HTTPException 400
             "Invalid URL format. Must be a valid HTTP or HTTPS URL")
  else
    try_catch
      (resp <- await (CallFetch urlParam) (fetch env urlParam) ;;
       if negb (ok resp) then
         throw (HTTPException (status resp)
                  ("Failed to fetch " ++ urlParam ++ ": " ++ statusText resp))
       else
       match Headers_get (headers resp) "Content-Type" with
       | None => throw (HTTPException 400 "Only HTML content is supported")
       | Some contentType =>
       if String.eqb contentType ""
          || negb (Js.includes contentType "text/html") then
         throw (HTTPException 400 "Only HTML content is supported")
       else
         body <- await CallText (text resp) ;;
         if Js.length body >? 10 * 1024 * 1024 then
           throw (HTTPException 413 "Content too large. Maximum size is 10MB")
         else
           url <- new_URL env urlParam ;;
           let files := conversionInput url body contentType in
           markdown <- await (CallToMarkdown files) (toMarkdown env files) ;;
           match markdown with
           | JsNull | JsUndefined | JsArray [] =>
               throw (HTTPException 500 "Failed to convert HTML to Markdown")
           | JsArray (first :: _) =>
               let content := data first in
               ret (c_text content
                      [ ("Content-Type", "text/markdown; charset=utf-8");
                        ("Cache-Control", "public, max-age=3600, s-maxage=86400") ])
           end
       end)
      (fun error =>
         match error with
         | HTTPException _ _ => throw error
         | Runtime e =>
             if instanceof_DOMException e
                && strict_eq (error_name e) "AbortError" then
               throw (HTTPException 504 "Request timeout")
             else
               emit (ConsoleError (Some "Unexpected error:") error) ;;;
               throw (HTTPException 500
                        "Internal server error while processing request")
         end)
  end.

(** [app.onError], lines 91-111. *)
Definition onError (err : Thrown) : M HttpResponse :=
  emit (ConsoleError None err) ;;;
  match err with
  | HTTPException st msg => c_json msg st st
  | Runtime _ => c_json "Internal Server Error" 500 500
  end.

(** The application on one request: the route, and the error handler
    for what the route throws.  When the error handler itself throws
    (its [c.json] can), the framework catches that error where the
    enclosing middleware awaits the route and hands it to the error
    handler once more.  The two middlewares (timing, logger) take no
    other part in the decisions and are left out. *)
Definition app (env : Env) (req : Request) : M HttpResponse :=
  try_catch (try_catch (html env req) onError) onError.

(** [app.request(...)] from an empty trace: the response sent, and the
    calls that were made. *)
Definition app_request (env : Env) (req : Request) : option HttpResponse * Trace :=
  match app env req [] with
  | (Returned r, t) => (Some r, t)
  | (Threw _, t) => (None, t)
  end.

Definition response (env : Env) (req : Request) : option HttpResponse :=
  fst (app_request env req).

Definition trace (env : Env) (req : Request) : Trace :=
  snd (app_request env req).

Definition fetch_invoked (t : Trace) : bool :=
  existsb (fun ev => match ev with CallFetch _ => true | _ => false end) t.

(** The converter was called on [files]. *)
Definition toMarkdown_invoked_with (files : list ConversionInput) (t : Trace) : Prop :=
  In (CallToMarkdown files) t.

(** ** Stages reached

    The conditions under which a request gets past each stage of the
    pipeline, as the theorems below use them. *)

(** The request carries a non-empty [url] that [isValidUrl] accepts. *)
Definition validated (env : Env) (req : Request) (urlParam : string) : Prop :=
  searchParams_get (searchParams req) "url" = Some urlParam
  /\ urlParam <> ""
  /\ isValidUrl env urlParam = true.

(** The string fails URL parsing, or parses to a URL whose scheme is
    neither http nor https. *)
Definition rejected_url (env : Env) (u : string) : Prop :=
  parseURL env u = None
  \/ exists url, parseURL env u = Some url
                 /\ protocol url <> "http:" /\ protocol url <> "https:".

(** The fetch resolved to a successful response. *)
Definition fetched (env : Env) (urlParam : string) (resp : Response) : Prop :=
  fetch env urlParam = Resolved resp /\ ok resp = true.

(** The response declares a content type that contains [text/html]. *)
Definition html_typed (resp : Response) (contentType : string) : Prop :=
  Headers_get (headers resp) "Content-Type" = Some contentType
  /\ Js.includes contentType "text/html" = true.

(** The abort signal of the runtime. *)
Definition is_abort (e : JsError) : bool :=
  instanceof_DOMException e && strict_eq (error_name e) "AbortError".

(** The answer of the content-type gate. *)
Definition not_html : HttpResponse :=
  JsonResponse 400 "Only HTML content is supported" 400.

(** The body was read: [resp.text()] was called. *)
Definition body_read (t : Trace) : Prop := In CallText t.

(** The request got through the content-type and size gates: the fetch
    succeeded with an HTML content type, the body was read and is at
    most 10 MiB long; [url] is what [new URL(urlParam)] gives. *)
Definition gated (env : Env) (u : string) (resp : Response)
    (contentType body : string) (url : URL) : Prop :=
  fetched env u resp
  /\ html_typed resp contentType
  /\ text resp = Resolved body
  /\ Js.length body <= 10485760
  /\ parseURL env u = Some url.

(** One of the awaits of the [try] block rejects with [e]: the fetch,
    the reading of the body, or the conversion. *)
Inductive rejects (env : Env) (u : string) (e : JsError) : Prop :=
| fetch_rejects :
    fetch env u = Rejected e -> rejects env u e
| text_rejects (resp : Response) (contentType : string) :
    fetched env u resp -> html_typed resp contentType ->
    text resp = Rejected e -> rejects env u e
| toMarkdown_rejects (resp : Response) (contentType body : string) (url : URL) :
    gated env u resp contentType body url ->
    toMarkdown env (conversionInput url body contentType) = Rejected e ->
    rejects env u e.

Definition timeout_504 : HttpResponse := JsonResponse 504 "Request timeout" 504.

Definition unexpected_500 : HttpResponse :=
  JsonResponse 500 "Internal server error while processing request" 500.

(** ** Runs of the application

    What a request leads to, by the stage of the pipeline that ends it:
    the answer sent and the trace left.  [app_request_run] below shows
    that every request is in exactly this relation with what
    [app_request] computes. *)

(** The answer and the trace of a run that ends with an [HTTPException]
    after the collaborator calls [calls]: [onError] logs the exception
    and answers with its message and status; when no response can carry
    that status, [onError] is entered again with the constructor's
    error, logs it and answers with its fallback. *)
Definition refused (calls : Trace) (code : Z) (message : string)
  : option HttpResponse * Trace :=
  match Response_init_error code with
  | None =>
      (Some (JsonResponse code message code),
       (calls ++ [ConsoleError None (HTTPException code message)])%list)
  | Some e =>
      (Some (JsonResponse 500 "Internal Server Error" 500),
       (calls ++ [ConsoleError None (HTTPException code message);
                  ConsoleError None (Runtime e)])%list)
  end.

(** The same for a run in which an await rejects with [e] after
    [calls]: the catch block of the route turns the abort signal into
    the 504, and logs and turns anything else into the 500. *)
Definition caught (calls : Trace) (e : JsError) : option HttpResponse * Trace :=
  if is_abort e then refused calls 504 "Request timeout"
  else refused (calls ++ [ConsoleError (Some "Unexpected error:") (Runtime e)])%list
         500 "Internal server error while processing request".

Inductive Run (env : Env) (req : Request) : option HttpResponse * Trace -> Prop :=
| run_missing :
    searchParams_get (searchParams req) "url" = None
    \/ searchParams_get (searchParams req) "url" = Some "" ->
    Run env req (refused [] 400 "URL parameter is required")
| run_invalid (u : string) :
    searchParams_get (searchParams req) "url" = Some u ->
    u <> "" ->
    isValidUrl env u = false ->
    Run env req
      (refused [] 400 "Invalid URL format. Must be a valid HTTP or HTTPS URL")
| run_fetch_rejected (u : string) (e : JsError) :
    validated env req u ->
    fetch env u = Rejected e ->
    Run env req (caught [CallFetch u] e)
| run_upstream (u : string) (resp : Response) :
    validated env req u ->
    fetch env u = Resolved resp ->
    ok resp = false ->
    Run env req
      (refused [CallFetch u] (status resp)
         ("Failed to fetch " ++ u ++ ": " ++ statusText resp))
| run_not_html (u : string) (resp : Response) :
    validated env req u ->
    fetched env u resp ->
    Headers_get (headers resp) "Content-Type" = None
    \/ (exists ct, Headers_get (headers resp) "Content-Type" = Some ct
                   /\ Js.includes ct "text/html" = false) ->
    Run env req (refused [CallFetch u] 400 "Only HTML content is supported")
| run_text_rejected (u : string) (resp : Response) (ct : string) (e : JsError) :
    validated env req u ->
    fetched env u resp ->
    html_typed resp ct ->
    text resp = Rejected e ->
    Run env req (caught [CallFetch u; CallText] e)
| run_too_large (u : string) (resp : Response) (ct body : string) :
    validated env req u ->
    fetched env u resp ->
    html_typed resp ct ->
    text resp = Resolved body ->
    Js.length body > 10485760 ->
    Run env req
      (refused [CallFetch u; CallText] 413
         "Content too large. Maximum size is 10MB")
| run_convert_rejected (u : string) (resp : Response) (ct body : string)
    (url : URL) (e : JsError) :
    validated env req u ->
    gated env u resp ct body url ->
    toMarkdown env (conversionInput url body ct) = Rejected e ->
    Run env req
      (caught [CallFetch u; CallText;
               CallToMarkdown (conversionInput url body ct)] e)
| run_convert_empty (u : string) (resp : Response) (ct body : string)
    (url : URL) (markdown : MarkdownResult) :
    validated env req u ->
    gated env u resp ct body url ->
    toMarkdown env (conversionInput url body ct) = Resolved markdown ->
    markdown = JsNull \/ markdown = JsUndefined \/ markdown = JsArray [] ->
    Run env req
      (refused [CallFetch u; CallText;
                CallToMarkdown (conversionInput url body ct)]
         500 "Failed to convert HTML to Markdown")
| run_success (u : string) (resp : Response) (ct body : string) (url : URL)
    (first : ConversionResponse) (others : list ConversionResponse) :
    validated env req u ->
    gated env u resp ct body url ->
    toMarkdown env (conversionInput url body ct)
    = Resolved (JsArray (first :: others)) ->
    Run env req
      (Some (c_text (data first)
               [ ("Content-Type", "text/markdown; charset=utf-8");
                 ("Cache-Control", "public, max-age=3600, s-maxage=86400") ]),
       [CallFetch u; CallText; CallToMarkdown (conversionInput url body ct)]).

(** The calls to the collaborators in a trace, the logging left out. *)
Definition collaborator_calls (t : Trace) : Trace :=
  filter (fun ev => match ev with ConsoleError _ _ => false | _ => true end) t.

(** [res.status]. *)
Definition response_status (r : HttpResponse) : Z :=
  match r with
  | TextResponse code _ _ => code
  | JsonResponse code _ _ => code
  end.

(** ** Test doubles

    Concrete collaborators in the style of the repository's tests: a
    table for [new URL] on the addresses the tests use, a fetch and a
    converter that settle to given values. *)

Module Demo.

Definition parse (s : string) : option URL :=
  if String.eqb s "https://example.com" then
    Some {| protocol := "https:"; hostname := "example.com" |}
  else if String.eqb s "https://example.com/notfound" then
    Some {| protocol := "https:"; hostname := "example.com" |}
  else if String.eqb s "https://slow.example.com" then
    Some {| protocol := "https:"; hostname := "slow.example.com" |}
  else if String.eqb s "ftp://example.com" then
    Some {| protocol := "ftp:"; hostname := "example.com" |}
  else None.

Definition env (f : Settled Response) (m : Settled MarkdownResult) : Env :=
  {| parseURL := parse; fetch := fun _ => f; toMarkdown := fun _ => m |}.

Definition get (u : string) : Request := {| searchParams := [("url", u)] |}.

Definition no_param : Request := {| searchParams := [] |}.

Definition page (contentType : option string) (body : Settled string) : Response :=
  {| ok := true; status := 200; statusText := "OK";
     headers := match contentType with
                | Some ct => Headers_new [("Content-Type", ct)]
                | None => Headers_new []
                end;
     text := body |}.

Definition failure (code : Z) (reason : string) : Response :=
  {| ok := false; status := code; statusText := reason;
     headers := Headers_new []; text := Resolved "" |}.

Definition abort : JsError := DOMException "AbortError" "The operation was aborted".

End Demo.

(** ** Facts about strings *)

Section StringFacts.

Lemma prefix_app (sub s t : string) :
  String.prefix sub s = true -> String.prefix sub (s ++ t) = true.
Proof.
  revert s; induction sub as [|c sub IH]; intros s H.
  - destruct (s ++ t); reflexivity.
  - destruct s as [|d s]; [discriminate|].
    cbn in *. destruct (Ascii.ascii_dec c d); [auto | discriminate].
Qed.

Lemma prefix_refl (s : string) : String.prefix s s = true.
Proof.
  induction s as [|c s IH]; cbn; [reflexivity|].
  destruct (Ascii.ascii_dec c c); [assumption | congruence].
Qed.

Lemma includes_prefix (s sub : string) :
  String.prefix sub s = true -> Js.includes s sub = true.
Proof. intros H. destruct s; cbn in *; rewrite H; reflexivity. Qed.

Lemma includes_app_l (s t sub : string) :
  Js.includes s sub = true -> Js.includes (s ++ t) sub = true.
Proof.
  induction s as [|c s IH]; cbn; intros H.
  - rewrite orb_false_r in H.
    apply includes_prefix. destruct sub; [destruct t; reflexivity | discriminate].
  - apply orb_true_iff in H. destruct H as [H|H].
    + apply (prefix_app _ (String c s) t) in H. cbn in H. rewrite H. reflexivity.
    + rewrite (IH H). apply orb_true_r.
Qed.

Lemma includes_app_r (s t sub : string) :
  Js.includes t sub = true -> Js.includes (s ++ t) sub = true.
Proof.
  intros H. induction s as [|c s IH]; cbn; [assumption|].
  rewrite IH. apply orb_true_r.
Qed.

Lemma includes_refl (s : string) : Js.includes s s = true.
Proof. apply includes_prefix, prefix_refl. Qed.

Lemma includes_nonempty (s sub : string) :
  sub <> "" -> Js.includes s sub = true -> s <> "".
Proof.
  intros Hsub H ->. cbn in H. destruct sub; [congruence | discriminate].
Qed.

Lemma length_repeat (c : ascii) (count : N) :
  Js.length (Js.repeat c count) = Z.of_N count.
Proof.
  unfold Js.length, Js.repeat.
  induction count as [|n IH] using N.peano_ind; [reflexivity|].
  rewrite N.iter_succ. cbn [String.length].
  rewrite Nat2Z.inj_succ, IH, N2Z.inj_succ. reflexivity.
Qed.

End StringFacts.

(** ** Running the pipeline *)

Lemma eqb_nonempty (s : string) : s <> "" -> String.eqb s "" = false.
Proof. apply String.eqb_neq. Qed.

Lemma valid_parses (env : Env) (u : string) :
  isValidUrl env u = true -> exists url, parseURL env u = Some url.
Proof.
  unfold isValidUrl. destruct (parseURL env u) as [url|]; [eauto | discriminate].
Qed.

(** Unfold the application down to the monad, leaving the string and
    header functions folded. *)
Ltac unfold_app :=
  unfold response, trace, app_request, app, html, onError, new_URL,
    try_catch, bind, await, emit, throw, ret, c_json.

(** Enter the [try] block of a validated request. *)
Ltac enter_try H :=
  let Hget := fresh "Hget" in
  let Hne := fresh "Hne" in
  let Hvalid := fresh "Hvalid" in
  destruct H as (Hget & Hne & Hvalid);
  unfold_app;
  rewrite Hget, (eqb_nonempty _ Hne), Hvalid; cbn [negb].

Ltac catch_block :=
  cbn;
  try match goal with
      | |- context [instanceof_DOMException ?r && _] =>
          destruct (instanceof_DOMException r && strict_eq (error_name r) "AbortError")
      end;
  cbn; intros [= <- _]; eauto.

(** The scenarios of the test file, run on the model. *)

Example converts_html_to_markdown :
  app_request
    (Demo.env (Resolved (Demo.page (Some "text/html; charset=utf-8")
                                   (Resolved "<h1>Test</h1><p>Content</p>")))
              (Resolved (JsArray [{| data := "# Test" |}])))
    (Demo.get "https://example.com")
  = (Some (TextResponse 200
             [ ("content-type", "text/plain; charset=UTF-8");
               ("cache-control", "public, max-age=3600, s-maxage=86400") ]
             "# Test"),
     [ CallFetch "https://example.com"; CallText;
       CallToMarkdown
         (conversionInput {| protocol := "https:"; hostname := "example.com" |}
            "<h1>Test</h1><p>Content</p>" "text/html; charset=utf-8") ]).
Proof. reflexivity. Qed.

Example not_found_is_forwarded :
  response (Demo.env (Resolved (Demo.failure 404 "Not Found")) (Resolved JsNull))
           (Demo.get "https://example.com/notfound")
  = Some (JsonResponse 404
            "Failed to fetch https://example.com/notfound: Not Found" 404).
Proof. reflexivity. Qed.

Example ftp_is_refused_without_fetch :
  app_request (Demo.env (Rejected Demo.abort) (Resolved JsNull))
              (Demo.get "ftp://example.com")
  = (Some (JsonResponse 400
             "Invalid URL format. Must be a valid HTTP or HTTPS URL" 400),
     [ ConsoleError None
         (HTTPException 400
            "Invalid URL format. Must be a valid HTTP or HTTPS URL") ]).
Proof. reflexivity. Qed.

(** The route only ever throws [HTTPException]s, so the error handler
    always takes its first branch and the application always answers. *)
Lemma html_throws_HTTPException
    (env : Env) (req : Request) (t t' : Trace) (e : Thrown) :
  html env req t = (Threw e, t') ->
  exists st message, e = HTTPException st message.
Proof.
  unfold html, new_URL, try_catch, bind, await, emit, throw, ret.
  destruct (searchParams_get (searchParams req) "url") as [u|];
    [|intros [= <- _]; eauto].
  destruct (String.eqb u ""); [intros [= <- _]; eauto|].
  destruct (isValidUrl env u); cbn [negb]; [|intros [= <- _]; eauto].
  destruct (fetch env u) as [resp|r]; [|catch_block].
  destruct (ok resp); cbn [negb]; [|intros [= <- _]; eauto].
  destruct (Headers_get (headers resp) "Content-Type") as [ct|];
    [|intros [= <- _]; eauto].
  destruct (String.eqb ct "" || negb (Js.includes ct "text/html"));
    [intros [= <- _]; eauto|].
  destruct (text resp) as [body|r]; [|catch_block].
  destruct (Js.length body >? 10 * 1024 * 1024); [intros [= <- _]; eauto|].
  destruct (parseURL env u) as [url|]; [|catch_block].
  destruct (toMarkdown env (conversionInput url body ct))
    as [[ | | [|first rest]]|r];
    try (intros [= <- _]; eauto); try discriminate.
  catch_block.
Qed.

Lemma app_responds (env : Env) (req : Request) :
  exists r, response env req = Some r.
Proof.
  unfold response, app_request, app, try_catch.
  destruct (html env req []) as [[r|e] t] eqn:E; [cbn; eauto|].
  destruct (html_throws_HTTPException env req [] t e E) as (st & msg & ->).
  unfold onError, bind, emit, c_json, throw, ret.
  destruct (Response_init_error st); cbn; eauto.
Qed.

(** ** Parameter presence and URL validation *)

(** C8: a request whose [url] query parameter is absent or is the empty
    string is answered with status 400 and the message
    "URL parameter is required". *)
Theorem missing_url_is_400 (env : Env) (req : Request) :
  searchParams_get (searchParams req) "url" = None
  \/ searchParams_get (searchParams req) "url" = Some "" ->
  response env req = Some (JsonResponse 400 "URL parameter is required" 400).
Proof.
  intros [H|H]; unfold_app; rewrite H; reflexivity.
Qed.

Lemma missing_url_is_400_witness :
  response (Demo.env (Rejected Demo.abort) (Resolved JsNull)) Demo.no_param
  = Some (JsonResponse 400 "URL parameter is required" 400)
  /\ response (Demo.env (Rejected Demo.abort) (Resolved JsNull)) (Demo.get "")
     = Some (JsonResponse 400 "URL parameter is required" 400).
Proof.
  split; apply missing_url_is_400; [left | right]; reflexivity.
Defined.

Lemma rejected_url_invalid (env : Env) (u : string) :
  rejected_url env u -> isValidUrl env u = false.
Proof.
  unfold isValidUrl. intros [H | (url & H & Hh & Hs)]; rewrite H; [reflexivity|].
  apply String.eqb_neq in Hh, Hs. rewrite Hh, Hs. reflexivity.
Qed.

(** C7, as stated, fails on the empty string: it does not parse, and
    the answer is the message of the presence check. *)
Lemma invalid_url_claim_fails_on_empty :
  let env := Demo.env (Rejected Demo.abort) (Resolved JsNull) in
  let req := Demo.get "" in
  searchParams_get (searchParams req) "url" = Some ""
  /\ rejected_url env ""
  /\ response env req = Some (JsonResponse 400 "URL parameter is required" 400)
  /\ response env req
     <> Some (JsonResponse 400
                "Invalid URL format. Must be a valid HTTP or HTTPS URL" 400).
Proof.
  cbv zeta. repeat split; try reflexivity; [left; reflexivity | discriminate].
Qed.

(** C7 (amended): a non-empty [url] that fails URL parsing, or parses to
    a URL whose scheme is neither http nor https, is answered with
    status 400 and the message "Invalid URL format. Must be a valid HTTP
    or HTTPS URL", and the Fetcher is not invoked. *)
Theorem invalid_url_is_400 (env : Env) (req : Request) (u : string) :
  searchParams_get (searchParams req) "url" = Some u ->
  u <> "" ->
  rejected_url env u ->
  response env req
  = Some (JsonResponse 400
            "Invalid URL format. Must be a valid HTTP or HTTPS URL" 400)
  /\ fetch_invoked (trace env req) = false.
Proof.
  intros Hget Hne Hrej. apply rejected_url_invalid in Hrej.
  unfold_app. rewrite Hget, (eqb_nonempty _ Hne), Hrej. cbn. split; reflexivity.
Qed.

Lemma invalid_url_is_400_witness :
  let env := Demo.env (Resolved (Demo.page (Some "text/html") (Resolved "x")))
                      (Resolved JsNull) in
  (response env (Demo.get "ftp://example.com")
   = Some (JsonResponse 400
             "Invalid URL format. Must be a valid HTTP or HTTPS URL" 400)
   /\ fetch_invoked (trace env (Demo.get "ftp://example.com")) = false)
  /\ (response env (Demo.get "not-a-url")
      = Some (JsonResponse 400
                "Invalid URL format. Must be a valid HTTP or HTTPS URL" 400)
      /\ fetch_invoked (trace env (Demo.get "not-a-url")) = false).
Proof.
  cbv zeta. split.
  - apply (invalid_url_is_400 _ _ "ftp://example.com");
      [reflexivity | discriminate |].
    right. eexists. split; [reflexivity | split; discriminate].
  - apply (invalid_url_is_400 _ _ "not-a-url");
      [reflexivity | discriminate | left; reflexivity].
Defined.

(** ** Upstream errors *)

(** X13: when the Fetcher's response has [ok = false] and its status is
    one that a response with a body can carry (200..599, not 204, 205 or
    304), the status of the answer is the upstream status, and the
    message is "Failed to fetch " + url + ": " + the upstream status
    text; hence it contains "Failed to fetch" and the status text. *)
Theorem upstream_error_is_forwarded
    (env : Env) (req : Request) (u : string) (resp : Response) :
  validated env req u ->
  fetch env u = Resolved resp ->
  ok resp = false ->
  Response_init_error (status resp) = None ->
  let message := "Failed to fetch " ++ u ++ ": " ++ statusText resp in
  response env req = Some (JsonResponse (status resp) message (status resp))
  /\ Js.includes message "Failed to fetch" = true
  /\ Js.includes message (statusText resp) = true.
Proof.
  intros Hv Hfetch Hok Hsend message. split; [|split].
  - enter_try Hv. rewrite Hfetch, Hok. cbn. rewrite Hsend. reflexivity.
  - unfold message.
    change ("Failed to fetch " ++ u ++ ": " ++ statusText resp)
      with ("Failed to fetch" ++ (" " ++ u ++ ": " ++ statusText resp)).
    apply includes_app_l, includes_refl.
  - unfold message. do 3 apply includes_app_r. apply includes_refl.
Qed.

Lemma upstream_error_is_forwarded_witness :
  let env := Demo.env (Resolved (Demo.failure 404 "Not Found")) (Resolved JsNull) in
  let message := "Failed to fetch https://example.com/notfound: Not Found" in
  response env (Demo.get "https://example.com/notfound")
  = Some (JsonResponse 404 message 404)
  /\ Js.includes message "Failed to fetch" = true
  /\ Js.includes message "Not Found" = true.
Proof.
  cbv zeta.
  apply (upstream_error_is_forwarded
           (Demo.env (Resolved (Demo.failure 404 "Not Found")) (Resolved JsNull))
           (Demo.get "https://example.com/notfound")
           "https://example.com/notfound" (Demo.failure 404 "Not Found")).
  - repeat split; [discriminate].
  - reflexivity.
  - reflexivity.
  - reflexivity.
Defined.

(** C4 does not hold of the code for every response with [ok = false]:
    when the upstream status is one that no response with a body can
    carry (outside 200..599, or 204, 205, 304), the error handler's
    [c.json] throws, the error handler is entered again with that
    error, and the answer is the fallback 500 "Internal Server Error"
    instead of the upstream status and the "Failed to fetch" message. *)
Theorem unsendable_upstream_status_is_not_forwarded
    (env : Env) (req : Request) (u : string) (resp : Response) (e : JsError) :
  validated env req u ->
  fetch env u = Resolved resp ->
  ok resp = false ->
  Response_init_error (status resp) = Some e ->
  response env req = Some (JsonResponse 500 "Internal Server Error" 500)
  /\ trace env req
     = [ CallFetch u;
         ConsoleError None
           (HTTPException (status resp)
              ("Failed to fetch " ++ u ++ ": " ++ statusText resp));
         ConsoleError None (Runtime e) ].
Proof.
  intros Hv Hfetch Hok Hsend.
  enter_try Hv. rewrite Hfetch, Hok. cbn. rewrite Hsend. cbn.
  split; reflexivity.
Qed.

Lemma unsendable_upstream_status_is_not_forwarded_witness :
  let req := Demo.get "https://example.com" in
  let env code reason := Demo.env (Resolved (Demo.failure code reason))
                                  (Resolved JsNull) in
  response (env 304 "Not Modified") req
  = Some (JsonResponse 500 "Internal Server Error" 500)
  /\ response (env 999 "Request denied") req
     = Some (JsonResponse 500 "Internal Server Error" 500).
Proof.
  cbv zeta. split.
  - refine (proj1 (unsendable_upstream_status_is_not_forwarded
                     _ _ "https://example.com" (Demo.failure 304 "Not Modified")
                     _ _ _ _ _)).
    + repeat split; discriminate.
    + reflexivity.
    + reflexivity.
    + reflexivity.
  - refine (proj1 (unsendable_upstream_status_is_not_forwarded
                     _ _ "https://example.com" (Demo.failure 999 "Request denied")
                     _ _ _ _ _)).
    + repeat split; discriminate.
    + reflexivity.
    + reflexivity.
    + reflexivity.
Defined.

(** ** The content-type gate *)

Lemma html_typed_nonempty (resp : Response) (ct : string) :
  html_typed resp ct -> String.eqb ct "" = false.
Proof.
  intros [_ H]. apply eqb_nonempty.
  apply (includes_nonempty _ "text/html"); [discriminate | assumption].
Qed.

(** Go through the [try] block of a validated request up to the call of
    [resp.text()]. *)
Ltac enter_body Hv Hf Ht :=
  let Hfetch := fresh "Hfetch" in
  let Hok := fresh "Hok" in
  let Hempty := fresh "Hempty" in
  pose proof (html_typed_nonempty _ _ Ht) as Hempty;
  destruct Hf as (Hfetch & Hok);
  destruct Ht as (Hct & Hincl);
  enter_try Hv;
  rewrite Hfetch, Hok; cbn [negb];
  rewrite Hct, Hempty, Hincl; cbn [negb orb].

(** A response without a usable content type is refused before its body
    is read. *)
Lemma gate_refuses
    (env : Env) (req : Request) (u : string) (resp : Response) :
  validated env req u ->
  fetched env u resp ->
  Headers_get (headers resp) "Content-Type" = None
  \/ (exists ct, Headers_get (headers resp) "Content-Type" = Some ct
                 /\ Js.includes ct "text/html" = false) ->
  response env req = Some not_html /\ ~ body_read (trace env req).
Proof.
  intros Hv (Hfetch & Hok) Hct. unfold body_read, not_html.
  enter_try Hv. rewrite Hfetch, Hok. cbn [negb].
  destruct Hct as [Hct | (ct & Hct & Hincl)]; rewrite Hct.
  - cbn. split; [reflexivity | intros [H|[H|[]]]; discriminate].
  - rewrite Hincl, orb_true_r.
    cbn. split; [reflexivity | intros [H|[H|[]]]; discriminate].
Qed.

(** A response whose content type contains [text/html] has its body
    read, and whatever follows, the answer is not the gate's. *)
Lemma gate_passes
    (env : Env) (req : Request) (u : string) (resp : Response) (ct : string) :
  validated env req u ->
  fetched env u resp ->
  html_typed resp ct ->
  body_read (trace env req) /\ response env req <> Some not_html.
Proof.
  intros Hv Hf Ht. unfold body_read, not_html.
  destruct (valid_parses env u (proj2 (proj2 Hv))) as [url Hurl].
  enter_body Hv Hf Ht.
  destruct (text resp) as [body|e]; cbn.
  - destruct (Js.length body >? 10485760); cbn.
    + split; [auto | discriminate].
    + rewrite Hurl.
      destruct (toMarkdown env (conversionInput url body ct))
        as [[ | | [|first rest]]|e]; cbn;
        try (split; [auto | discriminate]).
      destruct (instanceof_DOMException e && strict_eq (error_name e) "AbortError");
        cbn; (split; [auto | discriminate]).
  - destruct (instanceof_DOMException e && strict_eq (error_name e) "AbortError");
      cbn; (split; [auto | discriminate]).
Qed.

(** C5: after a successful fetch, a response without a [Content-Type]
    header, or with one that does not contain "text/html", is answered
    with status 400 and "Only HTML content is supported", whatever the
    body, which is not read; a [Content-Type] that contains "text/html",
    such as "text/html" followed by a charset suffix, passes the gate:
    the body is read and the answer is not the gate's. *)
Theorem content_type_gate
    (env : Env) (req : Request) (u : string) (resp : Response) :
  validated env req u ->
  fetched env u resp ->
  (Headers_get (headers resp) "Content-Type" = None
   \/ (exists ct, Headers_get (headers resp) "Content-Type" = Some ct
                  /\ Js.includes ct "text/html" = false) ->
   response env req = Some (JsonResponse 400 "Only HTML content is supported" 400)
   /\ ~ body_read (trace env req))
  /\ (forall ct, html_typed resp ct ->
                 body_read (trace env req) /\ response env req <> Some not_html)
  /\ (forall suffix,
        Headers_get (headers resp) "Content-Type" = Some ("text/html" ++ suffix) ->
        body_read (trace env req) /\ response env req <> Some not_html).
Proof.
  intros Hv Hf. split; [|split].
  - apply (gate_refuses env req u resp Hv Hf).
  - intros ct. apply (gate_passes env req u resp ct Hv Hf).
  - intros suffix Hct. apply (gate_passes env req u resp ("text/html" ++ suffix));
      try assumption.
    split; [assumption | apply includes_app_l, includes_refl].
Qed.

Lemma content_type_gate_witness :
  let req := Demo.get "https://example.com" in
  let env ct := Demo.env (Resolved (Demo.page ct (Resolved "{}")))
                         (Resolved (JsArray [{| data := "# Test" |}])) in
  response (env None) req = Some not_html
  /\ response (env (Some "application/json")) req = Some not_html
  /\ body_read (trace (env (Some "text/html; charset=utf-8")) req)
  /\ response (env (Some "text/html; charset=utf-8")) req <> Some not_html.
Proof.
  cbv zeta. split; [|split].
  - refine (proj1 (proj1 (content_type_gate _ _ "https://example.com"
                            (Demo.page None (Resolved "{}")) _ _) _)).
    + repeat split; discriminate.
    + split; reflexivity.
    + left; reflexivity.
  - refine (proj1 (proj1 (content_type_gate _ _ "https://example.com"
                            (Demo.page (Some "application/json") (Resolved "{}"))
                            _ _) _)).
    + repeat split; discriminate.
    + split; reflexivity.
    + right. exists "application/json". split; reflexivity.
  - refine (proj2 (proj2 (content_type_gate _ _ "https://example.com"
                            (Demo.page (Some "text/html; charset=utf-8")
                                       (Resolved "{}"))
                            _ _)) "; charset=utf-8" _).
    + repeat split; discriminate.
    + split; reflexivity.
    + reflexivity.
Defined.

(** C10: the gate's substring test is case-sensitive: after a
    successful fetch, a [Content-Type] that contains "text/html" only in
    another letter case (it does once lower-cased, it does not as it is)
    is answered with status 400 and "Only HTML content is supported". *)
Theorem content_type_gate_is_case_sensitive
    (env : Env) (req : Request) (u : string) (resp : Response) (ct : string) :
  validated env req u ->
  fetched env u resp ->
  Headers_get (headers resp) "Content-Type" = Some ct ->
  Js.includes (Js.toLowerCase ct) "text/html" = true ->
  Js.includes ct "text/html" = false ->
  response env req = Some (JsonResponse 400 "Only HTML content is supported" 400).
Proof.
  intros Hv Hf Hct _ Hincl.
  apply (gate_refuses env req u resp Hv Hf).
  right. exists ct. split; assumption.
Qed.

Lemma content_type_gate_is_case_sensitive_witness :
  response (Demo.env (Resolved (Demo.page (Some "Text/HTML") (Resolved "<p></p>")))
                     (Resolved (JsArray [{| data := "" |}])))
           (Demo.get "https://example.com")
  = Some not_html.
Proof.
  apply (content_type_gate_is_case_sensitive _ _ "https://example.com"
           (Demo.page (Some "Text/HTML") (Resolved "<p></p>")) "Text/HTML").
  - repeat split; discriminate.
  - split; reflexivity.
  - reflexivity.
  - reflexivity.
  - reflexivity.
Defined.
(** ** The size gate *)

Lemma size_exceeded (body : string) :
  Js.length body > 10485760 -> (Js.length body >? 10 * 1024 * 1024) = true.
Proof. intros H. apply Z.gtb_lt. change (10 * 1024 * 1024) with 10485760. lia. Qed.

Lemma size_ok (body : string) :
  Js.length body <= 10485760 -> (Js.length body >? 10 * 1024 * 1024) = false.
Proof.
  intros H. rewrite Z.gtb_ltb. apply Z.ltb_ge.
  change (10 * 1024 * 1024) with 10485760. lia.
Qed.

(** Go through the [try] block of a validated request up to the call of
    the converter. *)
Ltac enter_convert Hv Hg :=
  let Hf := fresh "Hf" in
  let Ht := fresh "Ht" in
  let Htext := fresh "Htext" in
  let Hlen := fresh "Hlen" in
  let Hurl := fresh "Hurl" in
  destruct Hg as (Hf & Ht & Htext & Hlen & Hurl);
  enter_body Hv Hf Ht;
  rewrite Htext; cbn [negb];
  rewrite (size_ok _ Hlen), Hurl.

(** C3: for a successfully fetched HTML response, a body longer than
    10,485,760 code units is answered with status 413 and
    "Content too large. Maximum size is 10MB"; a body of exactly
    10,485,760 code units passes the size gate: the converter is called
    on it. *)
Theorem size_gate
    (env : Env) (req : Request) (u : string) (resp : Response)
    (ct body : string) :
  validated env req u ->
  fetched env u resp ->
  html_typed resp ct ->
  text resp = Resolved body ->
  (Js.length body > 10485760 ->
   response env req
   = Some (JsonResponse 413 "Content too large. Maximum size is 10MB" 413))
  /\ (Js.length body = 10485760 ->
      exists url,
        parseURL env u = Some url
        /\ toMarkdown_invoked_with (conversionInput url body ct) (trace env req)
        /\ response env req
           <> Some (JsonResponse 413 "Content too large. Maximum size is 10MB" 413)).
Proof.
  intros Hv Hf Ht Htext. split; intros Hlen.
  - enter_body Hv Hf Ht. rewrite Htext; cbn [negb].
    rewrite (size_exceeded _ Hlen). reflexivity.
  - destruct (valid_parses env u (proj2 (proj2 Hv))) as [url Hurl].
    exists url. split; [assumption|].
    assert (Hg : gated env u resp ct body url).
    { repeat split; try apply Hf; try apply Ht; try assumption. lia. }
    unfold toMarkdown_invoked_with.
    enter_convert Hv Hg.
    destruct (toMarkdown env (conversionInput url body ct))
      as [[ | | [|first rest]]|e]; cbn;
      try (split; [auto | discriminate]).
    destruct (instanceof_DOMException e && strict_eq (error_name e) "AbortError");
      cbn; (split; [auto | discriminate]).
Qed.

Lemma size_gate_witness :
  let req := Demo.get "https://example.com" in
  let env body := Demo.env (Resolved (Demo.page (Some "text/html") (Resolved body)))
                           (Resolved (JsArray [{| data := "# Test" |}])) in
  let large := Js.repeat "x" (11 * 1024 * 1024) in
  let exact := Js.repeat "x" 10485760 in
  response (env large) req
  = Some (JsonResponse 413 "Content too large. Maximum size is 10MB" 413)
  /\ exists url,
       parseURL (env exact) "https://example.com" = Some url
       /\ toMarkdown_invoked_with (conversionInput url exact "text/html")
            (trace (env exact) req)
       /\ response (env exact) req
          <> Some (JsonResponse 413 "Content too large. Maximum size is 10MB" 413).
Proof.
  cbv zeta. split.
  - refine (proj1 (size_gate _ _ "https://example.com"
                     (Demo.page (Some "text/html")
                                (Resolved (Js.repeat "x" (11 * 1024 * 1024))))
                     "text/html" (Js.repeat "x" (11 * 1024 * 1024)) _ _ _ _) _).
    + repeat split; discriminate.
    + split; reflexivity.
    + split; reflexivity.
    + reflexivity.
    + rewrite length_repeat. reflexivity.
  - refine (proj2 (size_gate _ _ "https://example.com"
                     (Demo.page (Some "text/html")
                                (Resolved (Js.repeat "x" 10485760)))
                     "text/html" (Js.repeat "x" 10485760) _ _ _ _) _).
    + repeat split; discriminate.
    + split; reflexivity.
    + split; reflexivity.
    + reflexivity.
    + rewrite length_repeat. reflexivity.
Defined.

(** ** The conversion result *)

(** C6: for a request that got through the content-type and size gates,
    a converter that resolves to [null], to [undefined] or to an empty
    sequence is answered with status 500 and
    "Failed to convert HTML to Markdown". *)
Theorem empty_conversion_is_500
    (env : Env) (req : Request) (u : string) (resp : Response)
    (ct body : string) (url : URL) (markdown : MarkdownResult) :
  validated env req u ->
  gated env u resp ct body url ->
  toMarkdown env (conversionInput url body ct) = Resolved markdown ->
  markdown = JsNull \/ markdown = JsUndefined \/ markdown = JsArray [] ->
  response env req
  = Some (JsonResponse 500 "Failed to convert HTML to Markdown" 500).
Proof.
  intros Hv Hg Hmd Hempty.
  enter_convert Hv Hg. rewrite Hmd.
  destruct Hempty as [-> | [-> | ->]]; reflexivity.
Qed.

Lemma empty_conversion_is_500_witness :
  let req := Demo.get "https://example.com" in
  let env m := Demo.env (Resolved (Demo.page (Some "text/html")
                                             (Resolved "<h1>Test</h1>")))
                        (Resolved m) in
  let failed := Some (JsonResponse 500 "Failed to convert HTML to Markdown" 500) in
  response (env JsNull) req = failed
  /\ response (env JsUndefined) req = failed
  /\ response (env (JsArray [])) req = failed.
Proof.
  cbv zeta.
  assert (H : forall m,
            m = JsNull \/ m = JsUndefined \/ m = JsArray [] ->
            response (Demo.env (Resolved (Demo.page (Some "text/html")
                                                    (Resolved "<h1>Test</h1>")))
                               (Resolved m))
                     (Demo.get "https://example.com")
            = Some (JsonResponse 500 "Failed to convert HTML to Markdown" 500)).
  { intros m Hm.
    apply (empty_conversion_is_500 _ _ "https://example.com"
             (Demo.page (Some "text/html") (Resolved "<h1>Test</h1>"))
             "text/html" "<h1>Test</h1>"
             {| protocol := "https:"; hostname := "example.com" |} m).
    - repeat split; discriminate.
    - repeat split. cbv. discriminate.
    - reflexivity.
    - exact Hm. }
  repeat split; apply H; auto.
Defined.

(** C1: for a request that passes validation and both gates, when the
    converter resolves to a sequence with at least one element, the
    answer has status 200, its body is the [data] of element 0 whatever
    the other elements are, its [Content-Type] is
    "text/plain; charset=UTF-8" and its [Cache-Control] is
    "public, max-age=3600, s-maxage=86400". *)
Theorem success_response
    (env : Env) (req : Request) (u : string) (resp : Response)
    (ct body : string) (url : URL)
    (first : ConversionResponse) (others : list ConversionResponse) :
  validated env req u ->
  gated env u resp ct body url ->
  toMarkdown env (conversionInput url body ct) = Resolved (JsArray (first :: others)) ->
  exists h,
    response env req = Some (TextResponse 200 h (data first))
    /\ Headers_get h "Content-Type" = Some "text/plain; charset=UTF-8"
    /\ Headers_get h "Cache-Control" = Some "public, max-age=3600, s-maxage=86400".
Proof.
  intros Hv Hg Hmd.
  enter_convert Hv Hg. rewrite Hmd. cbn.
  eexists. repeat split.
Qed.

Lemma success_response_witness :
  exists h,
    response (Demo.env (Resolved (Demo.page (Some "text/html; charset=utf-8")
                                            (Resolved "<h1>Test</h1><p>Content</p>")))
                       (Resolved (JsArray [ {| data := "# Test" |};
                                            {| data := "ignored" |} ])))
             (Demo.get "https://example.com")
    = Some (TextResponse 200 h "# Test")
    /\ Headers_get h "Content-Type" = Some "text/plain; charset=UTF-8"
    /\ Headers_get h "Cache-Control" = Some "public, max-age=3600, s-maxage=86400".
Proof.
  apply (success_response _ _ "https://example.com"
           (Demo.page (Some "text/html; charset=utf-8")
                      (Resolved "<h1>Test</h1><p>Content</p>"))
           "text/html; charset=utf-8" "<h1>Test</h1><p>Content</p>"
           {| protocol := "https:"; hostname := "example.com" |}
           {| data := "# Test" |} [ {| data := "ignored" |} ]).
  - repeat split; discriminate.
  - repeat split. cbv. discriminate.
  - reflexivity.
Defined.

(** ** Rejections of the awaited promises *)

Lemma is_abort_spec (e : JsError) :
  is_abort e = true <-> exists message, e = DOMException "AbortError" message.
Proof.
  unfold is_abort. split.
  - destruct e as [n m | n m | v]; cbn; try discriminate.
    intros H. apply String.eqb_eq in H. subst n. eauto.
  - intros [m ->]. reflexivity.
Qed.

Lemma not_abort_spec (e : JsError) :
  is_abort e = false <-> forall message, e <> DOMException "AbortError" message.
Proof.
  split.
  - intros H m ->. discriminate.
  - intros H. destruct (is_abort e) eqn:E; [|reflexivity].
    apply is_abort_spec in E. destruct E as [m ->]. destruct (H m eq_refl).
Qed.

(** Whichever await of the [try] block rejects, the answer depends only
    on whether the error is the abort signal. *)
Lemma rejection_response (env : Env) (req : Request) (u : string) (e : JsError) :
  validated env req u ->
  rejects env u e ->
  response env req = Some (if is_abort e then timeout_504 else unexpected_500).
Proof.
  intros Hv Hrej. unfold is_abort, timeout_504, unexpected_500.
  destruct Hrej as [Hfetch | resp ct Hf Ht Htext | resp ct body url Hg Hmd].
  - enter_try Hv. rewrite Hfetch.
    destruct (instanceof_DOMException e && strict_eq (error_name e) "AbortError");
      reflexivity.
  - enter_body Hv Hf Ht. rewrite Htext.
    destruct (instanceof_DOMException e && strict_eq (error_name e) "AbortError");
      reflexivity.
  - enter_convert Hv Hg. rewrite Hmd.
    destruct (instanceof_DOMException e && strict_eq (error_name e) "AbortError");
      reflexivity.
Qed.

(** C2: an abort signal (a DOMException named "AbortError") raised by
    any await of the pipeline, the fetch or the conversion alike, is
    answered with status 504 and "Request timeout"; every other
    rejection of the Fetcher is answered with status 500 and
    "Internal server error while processing request". *)
Theorem abort_is_504_else_500 (env : Env) (req : Request) (u : string) :
  validated env req u ->
  (forall message,
      rejects env u (DOMException "AbortError" message) ->
      response env req = Some (JsonResponse 504 "Request timeout" 504))
  /\ (forall e,
        fetch env u = Rejected e ->
        (forall message, e <> DOMException "AbortError" message) ->
        response env req
        = Some (JsonResponse 500
                  "Internal server error while processing request" 500)).
Proof.
  intros Hv. split.
  - intros message Hrej.
    rewrite (rejection_response env req u _ Hv Hrej). reflexivity.
  - intros e Hfetch Hother.
    rewrite (rejection_response env req u e Hv (fetch_rejects _ _ _ Hfetch)).
    apply not_abort_spec in Hother. rewrite Hother. reflexivity.
Qed.

Lemma abort_is_504_else_500_witness :
  let req := Demo.get "https://example.com" in
  let html := Demo.page (Some "text/html") (Resolved "<h1>Test</h1>") in
  response (Demo.env (Rejected Demo.abort) (Resolved JsNull)) req
  = Some (JsonResponse 504 "Request timeout" 504)
  /\ response (Demo.env (Resolved html) (Rejected Demo.abort)) req
     = Some (JsonResponse 504 "Request timeout" 504)
  /\ response (Demo.env (Rejected (OtherError "Error" "Network error"))
                        (Resolved JsNull)) req
     = Some (JsonResponse 500 "Internal server error while processing request" 500).
Proof.
  cbv zeta. split; [|split].
  - refine (proj1 (abort_is_504_else_500 _ _ "https://example.com" _)
              "The operation was aborted" _).
    + repeat split; discriminate.
    + apply fetch_rejects. reflexivity.
  - refine (proj1 (abort_is_504_else_500 _ _ "https://example.com" _)
              "The operation was aborted" _).
    + repeat split; discriminate.
    + apply (toMarkdown_rejects _ _ _
               (Demo.page (Some "text/html") (Resolved "<h1>Test</h1>"))
               "text/html" "<h1>Test</h1>"
               {| protocol := "https:"; hostname := "example.com" |}).
      * repeat split. cbv. discriminate.
      * reflexivity.
  - refine (proj2 (abort_is_504_else_500 _ _ "https://example.com" _)
              (OtherError "Error" "Network error") _ _).
    + repeat split; discriminate.
    + reflexivity.
    + discriminate.
Defined.

(** C9: the 504 answer is only for DOMException instances named
    "AbortError": a rejection of any await of the pipeline that is not a
    DOMException, a plain Error named "AbortError" included, is answered
    with status 500 and "Internal server error while processing
    request"; and when the answer is the 504, the rejection was a
    DOMException named "AbortError". *)
Theorem timeout_only_for_DOMException
    (env : Env) (req : Request) (u : string) (e : JsError) :
  validated env req u ->
  rejects env u e ->
  (instanceof_DOMException e = false ->
   response env req
   = Some (JsonResponse 500 "Internal server error while processing request" 500))
  /\ (forall message,
        e = OtherError "AbortError" message ->
        response env req
        = Some (JsonResponse 500
                  "Internal server error while processing request" 500))
  /\ (response env req = Some (JsonResponse 504 "Request timeout" 504) ->
      exists message, e = DOMException "AbortError" message).
Proof.
  intros Hv Hrej. rewrite (rejection_response env req u e Hv Hrej).
  split; [|split].
  - intros H. unfold is_abort. rewrite H. reflexivity.
  - intros message ->. reflexivity.
  - intros H. apply is_abort_spec.
    destruct (is_abort e); [reflexivity | discriminate].
Qed.

Lemma timeout_only_for_DOMException_witness :
  let req := Demo.get "https://example.com" in
  let html := Demo.page (Some "text/html") (Resolved "<h1>Test</h1>") in
  let named_abort := OtherError "AbortError" "The operation was aborted" in
  response (Demo.env (Rejected named_abort) (Resolved JsNull)) req
  = Some (JsonResponse 500 "Internal server error while processing request" 500)
  /\ response (Demo.env (Resolved html) (Rejected named_abort)) req
     = Some (JsonResponse 500 "Internal server error while processing request" 500).
Proof.
  cbv zeta. split.
  - refine (proj1 (timeout_only_for_DOMException _ _ "https://example.com"
                     (OtherError "AbortError" "The operation was aborted") _ _) _).
    + repeat split; discriminate.
    + apply fetch_rejects. reflexivity.
    + reflexivity.
  - refine (proj1 (timeout_only_for_DOMException _ _ "https://example.com"
                     (OtherError "AbortError" "The operation was aborted") _ _) _).
    + repeat split; discriminate.
    + apply (toMarkdown_rejects _ _ _
               (Demo.page (Some "text/html") (Resolved "<h1>Test</h1>"))
               "text/html" "<h1>Test</h1>"
               {| protocol := "https:"; hostname := "example.com" |}).
      * repeat split. cbv. discriminate.
      * reflexivity.
    + reflexivity.
Defined.

(** ** The runs of the application, stage by stage *)

Lemma size_decided (body : string) :
  (Js.length body >? 10 * 1024 * 1024) = true /\ Js.length body > 10485760
  \/ (Js.length body >? 10 * 1024 * 1024) = false /\ Js.length body <= 10485760.
Proof.
  change (10 * 1024 * 1024) with 10485760.
  destruct (Z.gtb_spec (Js.length body) 10485760); [left | right]; split;
    try reflexivity; lia.
Qed.

Lemma refused_sendable (calls : Trace) (code : Z) (message : string) :
  Response_init_error code = None ->
  refused calls code message
  = (Some (JsonResponse code message code),
     (calls ++ [ConsoleError None (HTTPException code message)])%list).
Proof. unfold refused. intros ->. reflexivity. Qed.

Lemma refused_unsendable (calls : Trace) (code : Z) (message : string)
    (e : JsError) :
  Response_init_error code = Some e ->
  refused calls code message
  = (Some (JsonResponse 500 "Internal Server Error" 500),
     (calls ++ [ConsoleError None (HTTPException code message);
                ConsoleError None (Runtime e)])%list).
Proof. unfold refused. intros ->. reflexivity. Qed.

Lemma caught_abort (calls : Trace) (e : JsError) :
  is_abort e = true -> caught calls e = refused calls 504 "Request timeout".
Proof. unfold caught. intros ->. reflexivity. Qed.

Lemma caught_other (calls : Trace) (e : JsError) :
  is_abort e = false ->
  caught calls e
  = refused (calls ++ [ConsoleError (Some "Unexpected error:") (Runtime e)])%list
      500 "Internal server error while processing request".
Proof. unfold caught. intros ->. reflexivity. Qed.

(** Every request runs as [Run] says. *)
Lemma app_request_run (env : Env) (req : Request) :
  Run env req (app_request env req).
Proof.
  assert (Hcatch : forall (u : string) (calls : Trace) (e : JsError),
            (if instanceof_DOMException e && strict_eq (error_name e) "AbortError"
             then refused calls 504 "Request timeout"
             else refused
                    (calls ++ [ConsoleError (Some "Unexpected error:") (Runtime e)])%list
                    500 "Internal server error while processing request")
            = caught calls e) by reflexivity.
  destruct (searchParams_get (searchParams req) "url") as [u|] eqn:Hget.
  2:{ replace (app_request env req)
        with (refused [] 400 "URL parameter is required")
        by (unfold_app; rewrite Hget; reflexivity).
      apply run_missing. left. assumption. }
  destruct (String.eqb_spec u "") as [-> | Hne].
  { replace (app_request env req)
      with (refused [] 400 "URL parameter is required")
      by (unfold_app; rewrite Hget; reflexivity).
    apply run_missing. right. assumption. }
  destruct (isValidUrl env u) eqn:Hvalid.
  2:{ replace (app_request env req)
        with (refused [] 400
                "Invalid URL format. Must be a valid HTTP or HTTPS URL")
        by (unfold_app; rewrite Hget, (eqb_nonempty _ Hne), Hvalid; reflexivity).
      apply (run_invalid env req u); assumption. }
  assert (Hv : validated env req u) by (repeat split; assumption).
  destruct (valid_parses env u Hvalid) as [url Hurl].
  destruct (fetch env u) as [resp|e] eqn:Hfetch.
  2:{ replace (app_request env req) with (caught [CallFetch u] e).
      - apply (run_fetch_rejected env req u e); assumption.
      - rewrite <- (Hcatch u). unfold_app.
        rewrite Hget, (eqb_nonempty _ Hne), Hvalid, Hfetch. cbn.
        destruct (instanceof_DOMException e && strict_eq (error_name e) "AbortError");
          reflexivity. }
  destruct (ok resp) eqn:Hok.
  2:{ replace (app_request env req)
        with (refused [CallFetch u] (status resp)
                ("Failed to fetch " ++ u ++ ": " ++ statusText resp))
        by (unfold_app; unfold refused;
            rewrite Hget, (eqb_nonempty _ Hne), Hvalid, Hfetch, Hok; cbn;
            destruct (Response_init_error (status resp)); reflexivity).
      apply (run_upstream env req u resp); assumption. }
  assert (Hf : fetched env u resp) by (split; assumption).
  assert (Hrefuse :
            Headers_get (headers resp) "Content-Type" = None
            \/ (exists ct, Headers_get (headers resp) "Content-Type" = Some ct
                           /\ Js.includes ct "text/html" = false) ->
            Run env req (app_request env req)).
  { intros Hct.
    replace (app_request env req)
      with (refused [CallFetch u] 400 "Only HTML content is supported").
    - apply (run_not_html env req u resp); assumption.
    - unfold_app. rewrite Hget, (eqb_nonempty _ Hne), Hvalid, Hfetch, Hok.
      cbn [negb].
      destruct Hct as [Hct | (ct & Hct & Hincl)]; rewrite Hct;
        [|rewrite Hincl, orb_true_r]; reflexivity. }
  destruct (Headers_get (headers resp) "Content-Type") as [ct|] eqn:Hct;
    [|apply Hrefuse; left; first [assumption | reflexivity]].
  destruct (Js.includes ct "text/html") eqn:Hincl;
    [clear Hrefuse
    | apply Hrefuse; right; exists ct; split; first [assumption | reflexivity]].
  assert (Ht : html_typed resp ct) by (split; assumption).
  pose proof (html_typed_nonempty resp ct Ht) as Hcte.
  destruct (text resp) as [body|e] eqn:Htext.
  2:{ replace (app_request env req) with (caught [CallFetch u; CallText] e).
      - apply (run_text_rejected env req u resp ct e); assumption.
      - rewrite <- (Hcatch u). unfold_app.
        rewrite Hget, (eqb_nonempty _ Hne), Hvalid, Hfetch, Hok. cbn [negb].
        rewrite Hct, Hcte, Hincl. cbn [negb orb]. rewrite Htext. cbn.
        destruct (instanceof_DOMException e && strict_eq (error_name e) "AbortError");
          reflexivity. }
  destruct (size_decided body) as [(Hgt & Hlen) | (Hgt & Hlen)].
  { replace (app_request env req)
      with (refused [CallFetch u; CallText] 413
              "Content too large. Maximum size is 10MB").
    - apply (run_too_large env req u resp ct body); assumption.
    - unfold_app.
      rewrite Hget, (eqb_nonempty _ Hne), Hvalid, Hfetch, Hok. cbn [negb].
      rewrite Hct, Hcte, Hincl. cbn [negb orb]. rewrite Htext, Hgt. reflexivity. }
  assert (Hg : gated env u resp ct body url) by (repeat split; assumption).
  assert (Hrun : app_request env req
                 = match toMarkdown env (conversionInput url body ct) with
                   | Resolved (JsArray (first :: _)) =>
                       (Some (c_text (data first)
                                [ ("Content-Type", "text/markdown; charset=utf-8");
                                  ("Cache-Control",
                                   "public, max-age=3600, s-maxage=86400") ]),
                        [CallFetch u; CallText;
                         CallToMarkdown (conversionInput url body ct)])
                   | Resolved _ =>
                       refused [CallFetch u; CallText;
                                CallToMarkdown (conversionInput url body ct)]
                         500 "Failed to convert HTML to Markdown"
                   | Rejected e =>
                       caught [CallFetch u; CallText;
                               CallToMarkdown (conversionInput url body ct)] e
                   end).
  { unfold_app.
    rewrite Hget, (eqb_nonempty _ Hne), Hvalid, Hfetch, Hok. cbn [negb].
    rewrite Hct, Hcte, Hincl. cbn [negb orb]. rewrite Htext, Hgt, Hurl.
    destruct (toMarkdown env (conversionInput url body ct))
      as [[ | | [|first rest]]|e]; try reflexivity.
    rewrite <- (Hcatch u). cbn.
    destruct (instanceof_DOMException e && strict_eq (error_name e) "AbortError");
      reflexivity. }
  rewrite Hrun.
  destruct (toMarkdown env (conversionInput url body ct))
    as [[ | | [|first rest]]|e] eqn:Hmd.
  - apply (run_convert_empty env req u resp ct body url JsNull); auto.
  - apply (run_convert_empty env req u resp ct body url JsUndefined); auto.
  - apply (run_convert_empty env req u resp ct body url (JsArray [])); auto.
  - apply (run_success env req u resp ct body url first rest); assumption.
  - apply (run_convert_rejected env req u resp ct body url e); assumption.
Qed.

(** Reason by cases on the run of a request; the goal has to hold what
    is known of [response env req] and [trace env req]. *)
Ltac run_cases env req :=
  unfold response, trace;
  generalize (app_request_run env req);
  generalize (app_request env req);
  let p := fresh "p" in
  let R := fresh "R" in
  intros p R; destruct R;
  try match goal with
      | |- context [caught _ ?e] =>
          let A := fresh "Habort" in
          destruct (is_abort e) eqn:A;
          [rewrite (caught_abort _ e A) | rewrite (caught_other _ e A)]
      end;
  repeat match goal with
         | |- context [refused ?calls ?code ?message] =>
             first [ rewrite (refused_sendable calls code message eq_refl)
                   | let S := fresh "Hsend" in
                     destruct (Response_init_error code) eqn:S;
                     [ rewrite (refused_unsendable calls code message _ S)
                     | rewrite (refused_sendable calls code message S) ] ]
         end;
  unfold c_text; cbn [fst snd app].

(** Open the stage conditions, and identify what two of them name
    twice: the parameter, the response, the body, ... *)
Ltac open_stages :=
  unfold validated, gated, fetched, html_typed in *;
  repeat match goal with
         | H : _ /\ _ |- _ => destruct H
         | H : exists _, _ |- _ => destruct H
         | H : _ \/ _ |- _ => destruct H
         end.

Ltac same :=
  repeat match goal with
         | H1 : ?t = ?c ?x, H2 : ?t = ?c ?y |- _ =>
             first [ constr_eq x y; clear H2
                   | is_var y; assert (x = y) by congruence; subst y
                   | is_var x; assert (y = x) by congruence; subst x ]
         end.

Ltac clash := open_stages; try congruence; same; try congruence; try lia.

Lemma valid_scheme (env : Env) (u : string) :
  isValidUrl env u = true ->
  exists url, parseURL env u = Some url
              /\ (protocol url = "http:" \/ protocol url = "https:").
Proof.
  unfold isValidUrl. destruct (parseURL env u) as [url|]; [|discriminate].
  intros H. exists url. split; [reflexivity|].
  apply orb_true_iff in H. destruct H as [H|H]; apply String.eqb_eq in H; auto.
Qed.

(** ** What the collaborators are called with *)

(** X1: the Fetcher is called with [v] exactly when [v] is the request's
    [url] parameter, non-empty and accepted by [isValidUrl]; so whatever
    is fetched parses as a URL whose protocol is "http:" or "https:". *)
Theorem fetcher_called_iff_validated (env : Env) (req : Request) (v : string) :
  (In (CallFetch v) (trace env req) <-> validated env req v)
  /\ (In (CallFetch v) (trace env req) ->
      exists url, parseURL env v = Some url
                  /\ (protocol url = "http:" \/ protocol url = "https:")).
Proof.
  assert (Hin : In (CallFetch v) (trace env req) -> validated env req v).
  { run_cases env req; cbn; intros Hin;
      repeat match goal with
             | H : _ \/ _ |- _ => destruct H
             end;
      try discriminate; try contradiction;
      match goal with H : CallFetch _ = CallFetch _ |- _ => injection H as <- end;
      assumption. }
  split; [split; [exact Hin|] | intros H; apply valid_scheme, (Hin H)].
  intros Hv. run_cases env req; cbn; clash; auto.
Qed.

Lemma fetcher_called_iff_validated_witness :
  let env := Demo.env (Resolved (Demo.failure 404 "Not Found")) (Resolved JsNull) in
  In (CallFetch "https://example.com/notfound")
     (trace env (Demo.get "https://example.com/notfound"))
  /\ ~ In (CallFetch "ftp://example.com") (trace env (Demo.get "ftp://example.com")).
Proof.
  cbv zeta. split.
  - apply (proj2 (proj1 (fetcher_called_iff_validated
                            _ _ "https://example.com/notfound"))).
    repeat split; discriminate.
  - intros H.
    apply (proj1 (proj1 (fetcher_called_iff_validated
                           _ _ "ftp://example.com"))) in H.
    destruct H as (Hget & Hne & Hvalid). discriminate Hvalid.
Defined.

(** X2: in one request the collaborators are called in the order of the
    pipeline and at most once each: the calls made are an initial
    segment of fetch, [resp.text()], [toMarkdown]; nothing is called
    for a request that is not validated, nothing is retried. *)
Theorem calls_are_an_initial_segment (env : Env) (req : Request) :
  collaborator_calls (trace env req) = []
  \/ exists u,
       validated env req u
       /\ (collaborator_calls (trace env req) = [CallFetch u]
           \/ collaborator_calls (trace env req) = [CallFetch u; CallText]
           \/ exists files,
                collaborator_calls (trace env req)
                = [CallFetch u; CallText; CallToMarkdown files]).
Proof.
  run_cases env req; cbn; auto; right; exists u; split; eauto.
Qed.

Lemma prefix_toLowerCase (sub s : string) :
  String.prefix sub s = true ->
  String.prefix (Js.toLowerCase sub) (Js.toLowerCase s) = true.
Proof.
  revert s; induction sub as [|c sub IH]; intros s H.
  - destruct (Js.toLowerCase s); reflexivity.
  - destruct s as [|d s]; [discriminate|].
    cbn in *. destruct (Ascii.ascii_dec c d) as [->|]; [|discriminate].
    destruct (Ascii.ascii_dec (Js.lower_unit d) (Js.lower_unit d));
      [auto | congruence].
Qed.

Lemma includes_toLowerCase (s sub : string) :
  Js.includes s sub = true ->
  Js.includes (Js.toLowerCase s) (Js.toLowerCase sub) = true.
Proof.
  induction s as [|c s IH]; intros H.
  - cbn in H. rewrite orb_false_r in H.
    apply includes_prefix. apply (prefix_toLowerCase sub "" H).
  - cbn in H. apply orb_true_iff in H. destruct H as [H|H].
    + apply includes_prefix. apply (prefix_toLowerCase sub (String c s) H).
    + cbn. rewrite (IH H). apply orb_true_r.
Qed.

(** The type of the blob made from an HTML content type is empty or
    still contains "text/html". *)
Lemma Blob_type_html (ct : string) :
  Js.includes ct "text/html" = true ->
  Blob_type ct = "" \/ Js.includes (Blob_type ct) "text/html" = true.
Proof.
  intros H. unfold Blob_type. destruct (all_printable ct); [right | left; reflexivity].
  apply (includes_toLowerCase ct "text/html" H).
Qed.

(** X3: the converter is called on [files] exactly when the request is
    validated and got through both gates, and [files] is then one
    document: named after the host with ".html" appended, holding the
    fetched body as its only part, under the upstream content type as
    [Blob] normalises it.  So whatever the converter receives is one
    document whose only part is at most 10,485,760 code units long and
    whose type is empty or contains "text/html". *)
Theorem converter_called_iff_gated
    (env : Env) (req : Request) (files : list ConversionInput) :
  (In (CallToMarkdown files) (trace env req)
   <-> exists u resp ct body url,
         validated env req u
         /\ gated env u resp ct body url
         /\ files = [ {| name := hostname url ++ ".html";
                         blob := {| blobParts := [body];
                                    blobType := Blob_type ct |} |} ])
  /\ (In (CallToMarkdown files) (trace env req) ->
      exists name body type,
        files = [ {| name := name;
                     blob := {| blobParts := [body]; blobType := type |} |} ]
        /\ Js.length body <= 10485760
        /\ (type = "" \/ Js.includes type "text/html" = true)).
Proof.
  assert (Hin : In (CallToMarkdown files) (trace env req) ->
                exists u resp ct body url,
                  validated env req u
                  /\ gated env u resp ct body url
                  /\ files = [ {| name := hostname url ++ ".html";
                                  blob := {| blobParts := [body];
                                             blobType := Blob_type ct |} |} ]).
  { run_cases env req; cbn; intros Hin;
      repeat match goal with
             | H : _ \/ _ |- _ => destruct H
             end;
      try discriminate; try contradiction;
      match goal with
      | H : CallToMarkdown _ = CallToMarkdown _ |- _ => injection H as <-
      end;
      exists u, resp, ct, body, url; auto. }
  split; [split; [exact Hin|] |].
  - intros (u0 & resp0 & ct0 & body0 & url0 & Hv & Hg & ->).
    change [ {| name := hostname url0 ++ ".html";
                blob := {| blobParts := [body0]; blobType := Blob_type ct0 |} |} ]
      with (conversionInput url0 body0 ct0).
    run_cases env req; cbn; clash; auto.
  - intros H. destruct (Hin H) as (u & resp & ct & body & url & _ & Hg & ->).
    destruct Hg as (_ & (_ & Hincl) & _ & Hlen & _).
    exists (hostname url ++ ".html"), body, (Blob_type ct).
    split; [reflexivity|]. split; [assumption|]. apply Blob_type_html, Hincl.
Qed.

Lemma converter_called_iff_gated_witness :
  let page := Demo.page (Some "Text/HTML; charset=utf-8; text/html")
                        (Resolved "<h1>Test</h1>") in
  In (CallToMarkdown
        [ {| name := "example.com.html";
             blob := {| blobParts := ["<h1>Test</h1>"];
                        blobType := "text/html; charset=utf-8; text/html" |} |} ])
     (trace (Demo.env (Resolved page) (Resolved (JsArray [])))
            (Demo.get "https://example.com")).
Proof.
  cbv zeta.
  apply (proj2 (proj1 (converter_called_iff_gated _ _ _))).
  exists "https://example.com",
         (Demo.page (Some "Text/HTML; charset=utf-8; text/html")
                    (Resolved "<h1>Test</h1>")),
         "Text/HTML; charset=utf-8; text/html", "<h1>Test</h1>",
         {| protocol := "https:"; hostname := "example.com" |}.
  split; [repeat split; discriminate|].
  split; [repeat split; cbv; discriminate | reflexivity].
Defined.

(** X9: the body of the upstream response is read exactly when the
    request is validated, the fetch resolved to an ok response and its
    [Content-Type] contains "text/html": a failed upstream response or
    one of another type is answered without [resp.text()]. *)
Theorem body_read_iff_html_fetched (env : Env) (req : Request) :
  body_read (trace env req)
  <-> exists u resp ct,
        validated env req u /\ fetched env u resp /\ html_typed resp ct.
Proof.
  split.
  - unfold body_read. run_cases env req; cbn; intros Hin;
      repeat match goal with
             | H : _ \/ _ |- _ => destruct H
             end;
      try discriminate; try contradiction;
      exists u, resp, ct; unfold gated in *; intuition.
  - intros (u & resp & ct & Hv & Hf & Ht).
    apply (gate_passes env req u resp ct Hv Hf Ht).
Qed.

Lemma body_read_iff_html_fetched_witness :
  body_read (trace (Demo.env (Resolved (Demo.page (Some "text/html")
                                                  (Rejected Demo.abort)))
                             (Resolved JsNull))
                   (Demo.get "https://example.com"))
  /\ ~ body_read (trace (Demo.env (Resolved (Demo.failure 404 "Not Found"))
                                  (Resolved JsNull))
                        (Demo.get "https://example.com")).
Proof.
  split.
  - apply (proj2 (body_read_iff_html_fetched _ _)).
    exists "https://example.com",
           (Demo.page (Some "text/html") (Rejected Demo.abort)), "text/html".
    split; [repeat split; discriminate|]. split; split; reflexivity.
  - intros H. apply (proj1 (body_read_iff_html_fetched _ _)) in H.
    destruct H as (u & resp & ct & (Hget & _) & (Hfetch & Hok) & _).
    injection Hget as <-. injection Hfetch as <-. discriminate Hok.
Defined.

(** ** What the answers say about the run *)

(** X4: a text answer is only sent after a complete run: if the answer
    is a text response, its status is 200, the request is validated and
    got through both gates, the converter resolved to a non-empty
    sequence whose first [data] is the body sent, and the trace holds
    the three collaborator calls and no logging. *)
Theorem text_answer_only_after_conversion
    (env : Env) (req : Request) (code : Z) (h : Headers) (b : string) :
  response env req = Some (TextResponse code h b) ->
  code = 200
  /\ exists u resp ct body url first others,
       validated env req u
       /\ gated env u resp ct body url
       /\ toMarkdown env (conversionInput url body ct)
          = Resolved (JsArray (first :: others))
       /\ b = data first
       /\ trace env req
          = [CallFetch u; CallText; CallToMarkdown (conversionInput url body ct)].
Proof.
  run_cases env req; intros Hres; try discriminate.
  injection Hres as <- <- <-. split; [reflexivity|].
  exists u, resp, ct, body, url, first, others. auto.
Qed.

Lemma text_answer_only_after_conversion_witness :
  let env := Demo.env (Resolved (Demo.page (Some "text/html")
                                           (Resolved "<h1>Test</h1>")))
                      (Resolved (JsArray [{| data := "# Test" |}])) in
  let req := Demo.get "https://example.com" in
  exists u resp ct body url first others,
    validated env req u
    /\ gated env u resp ct body url
    /\ toMarkdown env (conversionInput url body ct)
       = Resolved (JsArray (first :: others))
    /\ "# Test" = data first
    /\ trace env req
       = [CallFetch u; CallText; CallToMarkdown (conversionInput url body ct)].
Proof.
  cbv zeta.
  refine (proj2 (text_answer_only_after_conversion _ _ 200
                   [ ("content-type", "text/plain; charset=UTF-8");
                     ("cache-control", "public, max-age=3600, s-maxage=86400") ]
                   "# Test" _)).
  reflexivity.
Defined.

(** X5: every request is answered, and the status of the answer is 200,
    400, 413, 500 or 504, or else the status of an upstream response
    that was not ok, when a response with a body can carry that status
    (200..599, not 204, 205 or 304). *)
Theorem answer_status_codes (env : Env) (req : Request) :
  exists r,
    response env req = Some r
    /\ (In (response_status r) [200; 400; 413; 500; 504]
        \/ exists u resp,
             validated env req u
             /\ fetch env u = Resolved resp
             /\ ok resp = false
             /\ Response_init_error (status resp) = None
             /\ response_status r = status resp).
Proof.
  run_cases env req; eexists; (split; [reflexivity|]); cbn;
    try (left; tauto).
  right. exists u, resp. auto.
Qed.

(** X6: the generic message "Internal Server Error" of the error
    handler's fallback branch is the answer exactly when the upstream
    response was not ok and had a status that no response with a body
    can carry: the error handler fails on the route's [HTTPException]
    and is entered again.  Nothing else in the route reaches the
    fallback branch. *)
Theorem fallback_message_iff_unsendable_upstream
    (env : Env) (req : Request) (code st : Z) :
  response env req = Some (JsonResponse code "Internal Server Error" st)
  <-> code = 500 /\ st = 500
      /\ exists u resp,
           validated env req u
           /\ fetch env u = Resolved resp
           /\ ok resp = false
           /\ Response_init_error (status resp) <> None.
Proof.
  split.
  - run_cases env req; intros Hres; try discriminate Hres.
    injection Hres as <- <-. split; [reflexivity|]. split; [reflexivity|].
    exists u, resp.
    split; [assumption|]. split; [assumption|]. split; [assumption|]. congruence.
  - intros (-> & -> & u0 & resp0 & Hv & Hfetch & Hok & Hsend).
    run_cases env req; clash.
Qed.

Lemma fallback_message_iff_unsendable_upstream_witness :
  response (Demo.env (Resolved (Demo.failure 304 "Not Modified"))
                     (Resolved JsNull))
           (Demo.get "https://example.com")
  = Some (JsonResponse 500 "Internal Server Error" 500).
Proof.
  apply (proj2 (fallback_message_iff_unsendable_upstream _ _ 500 500)).
  split; [reflexivity|]. split; [reflexivity|].
  exists "https://example.com", (Demo.failure 304 "Not Modified").
  split; [repeat split; discriminate|].
  split; [reflexivity|]. split; [reflexivity | discriminate].
Defined.

(** X7: an error answer is a JSON object whose [status] field is the
    status code of the response, and the last thing done before it is
    sent is a logging by the error handler: of the [HTTPException] that
    carries the answer's status and message, or, for the fallback
    answer 500 "Internal Server Error", of the error that the
    [Response] constructor threw. *)
Theorem error_answers_are_logged
    (env : Env) (req : Request) (code st : Z) (message : string) :
  response env req = Some (JsonResponse code message st) ->
  st = code
  /\ exists before last,
       trace env req = (before ++ [ConsoleError None last])%list
       /\ (last = HTTPException code message
           \/ (code = 500 /\ message = "Internal Server Error"
               /\ exists e, last = Runtime e)).
Proof.
  run_cases env req; intros Hres; try discriminate Hres;
    injection Hres as <- <- <-; (split; [reflexivity|]).
  all: try (eexists; eexists; split; [reflexivity | left; reflexivity]).
  match goal with
  | S : Response_init_error (status resp) = Some ?e |- _ =>
      exists [CallFetch u;
              ConsoleError None
                (HTTPException (status resp)
                   ("Failed to fetch " ++ u ++ ": " ++ statusText resp))],
             (Runtime e)
  end.
  split; [reflexivity|]. right. eauto.
Qed.

Lemma error_answers_are_logged_witness :
  let env := Demo.env (Resolved (Demo.failure 404 "Not Found")) (Resolved JsNull) in
  let req := Demo.get "https://example.com/notfound" in
  let message := "Failed to fetch https://example.com/notfound: Not Found" in
  exists before last,
    trace env req = (before ++ [ConsoleError None last])%list
    /\ (last = HTTPException 404 message
        \/ (404 = 500 /\ message = "Internal Server Error"
            /\ exists e, last = Runtime e)).
Proof.
  cbv zeta.
  refine (proj2 (error_answers_are_logged _ _ 404 404
                   "Failed to fetch https://example.com/notfound: Not Found" _)).
  reflexivity.
Defined.

(** X8: the route logs "Unexpected error:" exactly for a rejection of
    one of its awaits that is not the abort signal: such a log entry
    means that an await rejected with the logged error, that it was no
    abort, and that the answer is the 500 "Internal server error while
    processing request"; and every such rejection is logged.  An abort
    and the route's own refusals are not logged by the route. *)
Theorem unexpected_errors_are_logged (env : Env) (req : Request) :
  (forall label err,
      In (ConsoleError (Some label) err) (trace env req) ->
      label = "Unexpected error:"
      /\ exists u e,
           err = Runtime e
           /\ validated env req u
           /\ rejects env u e
           /\ is_abort e = false
           /\ response env req = Some unexpected_500)
  /\ (forall u e,
        validated env req u ->
        rejects env u e ->
        is_abort e = false ->
        In (ConsoleError (Some "Unexpected error:") (Runtime e)) (trace env req)).
Proof.
  split.
  - intros label err.
    run_cases env req; cbn; intros Hin;
      repeat match goal with
             | H : _ \/ _ |- _ => destruct H
             end;
      try discriminate; try contradiction;
      match goal with
      | H : ConsoleError _ _ = ConsoleError _ _ |- _ => injection H as <- <-
      end;
      (split; [reflexivity|]); exists u, e;
      (split; [reflexivity|]); (split; [assumption|]);
      (split; [|split; [assumption | reflexivity]]).
    + apply fetch_rejects; assumption.
    + apply (text_rejects env u e resp ct); assumption.
    + apply (toMarkdown_rejects env u e resp ct body url); assumption.
  - intros u0 e0 Hv Hrej Hother.
    destruct Hrej as [Hfetch | resp0 ct0 Hf Ht Htext | resp0 ct0 body0 url0 Hg Hmd];
      run_cases env req; cbn; clash; auto 6.
Qed.

Lemma unexpected_errors_are_logged_witness :
  let failed := OtherError "Error" "Network error" in
  In (ConsoleError (Some "Unexpected error:") (Runtime failed))
     (trace (Demo.env (Rejected failed) (Resolved JsNull))
            (Demo.get "https://example.com")).
Proof.
  cbv zeta.
  apply (proj2 (unexpected_errors_are_logged _ _) "https://example.com").
  - repeat split; discriminate.
  - apply fetch_rejects. reflexivity.
  - reflexivity.
Defined.

(** ** What each message says about the request *)

Lemma invalid_rejected_url (env : Env) (u : string) :
  isValidUrl env u = false -> rejected_url env u.
Proof.
  unfold isValidUrl, rejected_url.
  destruct (parseURL env u) as [url|]; [|auto].
  intros H. apply orb_false_iff in H. destruct H as [Hh Hs].
  apply String.eqb_neq in Hh, Hs. right. exists url. auto.
Qed.

(** X10: the two messages of the validation stage tell the two
    failures apart: "URL parameter is required" is the answer exactly
    when the parameter is absent or empty, and "Invalid URL format.
    Must be a valid HTTP or HTTPS URL" exactly when it is non-empty and
    fails to parse or parses to another scheme. *)
Theorem validation_messages (env : Env) (req : Request) :
  (response env req = Some (JsonResponse 400 "URL parameter is required" 400)
   <-> searchParams_get (searchParams req) "url" = None
       \/ searchParams_get (searchParams req) "url" = Some "")
  /\ (response env req
      = Some (JsonResponse 400
                "Invalid URL format. Must be a valid HTTP or HTTPS URL" 400)
      <-> exists u,
            searchParams_get (searchParams req) "url" = Some u
            /\ u <> "" /\ rejected_url env u).
Proof.
  split; split.
  - run_cases env req; intros Hres; try discriminate Hres; assumption.
  - intros Hmissing. run_cases env req; clash.
  - run_cases env req; intros Hres; try discriminate Hres.
    exists u. auto using invalid_rejected_url.
  - intros (u0 & Hget & Hne & Hrej). apply rejected_url_invalid in Hrej.
    run_cases env req; clash.
Qed.

Lemma validation_messages_witness :
  let env := Demo.env (Rejected Demo.abort) (Resolved JsNull) in
  response env Demo.no_param
  = Some (JsonResponse 400 "URL parameter is required" 400)
  /\ response env (Demo.get "not-a-url")
     = Some (JsonResponse 400
               "Invalid URL format. Must be a valid HTTP or HTTPS URL" 400).
Proof.
  cbv zeta. split.
  - apply (proj2 (proj1 (validation_messages _ _))). left. reflexivity.
  - apply (proj2 (proj2 (validation_messages _ _))).
    exists "not-a-url". split; [reflexivity|]. split; [discriminate|].
    left. reflexivity.
Defined.

(** X11: the answers of the two gates come from nowhere else:
    "Only HTML content is supported" is the answer exactly when an ok
    upstream response has no [Content-Type] or one without "text/html",
    and the 413 "Content too large. Maximum size is 10MB" exactly when
    the body read from an ok HTML response is longer than 10,485,760
    code units. *)
Theorem gate_messages (env : Env) (req : Request) :
  (response env req = Some (JsonResponse 400 "Only HTML content is supported" 400)
   <-> exists u resp,
         validated env req u
         /\ fetched env u resp
         /\ (Headers_get (headers resp) "Content-Type" = None
             \/ exists ct, Headers_get (headers resp) "Content-Type" = Some ct
                           /\ Js.includes ct "text/html" = false))
  /\ (response env req
      = Some (JsonResponse 413 "Content too large. Maximum size is 10MB" 413)
      <-> exists u resp ct body,
            validated env req u
            /\ fetched env u resp
            /\ html_typed resp ct
            /\ text resp = Resolved body
            /\ Js.length body > 10485760).
Proof.
  split; split.
  - run_cases env req; intros Hres; try discriminate Hres.
    exists u, resp. auto.
  - intros (u0 & resp0 & Hv & Hf & Hct).
    apply (gate_refuses env req u0 resp0 Hv Hf Hct).
  - run_cases env req; intros Hres; try discriminate Hres.
    exists u, resp, ct, body. auto.
  - intros (u0 & resp0 & ct0 & body0 & Hv & Hf & Ht & Htext & Hlen).
    run_cases env req; clash.
Qed.

Lemma gate_messages_witness :
  response (Demo.env (Resolved (Demo.page (Some "application/json")
                                          (Resolved "{}")))
                     (Resolved JsNull))
           (Demo.get "https://example.com")
  = Some (JsonResponse 400 "Only HTML content is supported" 400).
Proof.
  apply (proj2 (proj1 (gate_messages _ _))).
  exists "https://example.com",
         (Demo.page (Some "application/json") (Resolved "{}")).
  split; [repeat split; discriminate|]. split; [split; reflexivity|].
  right. exists "application/json". split; reflexivity.
Defined.

(** X12: "Request timeout" is the answer exactly when one of the awaits
    rejected with the abort signal, and "Failed to convert HTML to
    Markdown" exactly when the converter was reached and resolved to
    [null], [undefined] or an empty sequence.  An upstream response
    with status 504 or 500 is answered with its own "Failed to fetch"
    message instead. *)
Theorem late_failure_messages (env : Env) (req : Request) :
  (response env req = Some (JsonResponse 504 "Request timeout" 504)
   <-> exists u e, validated env req u /\ rejects env u e /\ is_abort e = true)
  /\ (response env req
      = Some (JsonResponse 500 "Failed to convert HTML to Markdown" 500)
      <-> exists u resp ct body url markdown,
            validated env req u
            /\ gated env u resp ct body url
            /\ toMarkdown env (conversionInput url body ct) = Resolved markdown
            /\ (markdown = JsNull \/ markdown = JsUndefined
                \/ markdown = JsArray [])).
Proof.
  split; split.
  - run_cases env req; intros Hres; try discriminate Hres;
      exists u, e; (split; [assumption|]); (split; [|assumption]).
    + apply fetch_rejects; assumption.
    + apply (text_rejects env u e resp ct); assumption.
    + apply (toMarkdown_rejects env u e resp ct body url); assumption.
  - intros (u0 & e0 & Hv & Hrej & Habort0).
    rewrite (rejection_response env req u0 e0 Hv Hrej), Habort0. reflexivity.
  - run_cases env req; intros Hres; try discriminate Hres.
    exists u, resp, ct, body, url, markdown. auto.
  - intros (u0 & resp0 & ct0 & body0 & url0 & m0 & Hv & Hg & Hmd & Hempty).
    run_cases env req; clash.
Qed.

Lemma late_failure_messages_witness :
  response (Demo.env (Resolved (Demo.page (Some "text/html") (Rejected Demo.abort)))
                     (Resolved JsNull))
           (Demo.get "https://example.com")
  = Some (JsonResponse 504 "Request timeout" 504).
Proof.
  apply (proj2 (proj1 (late_failure_messages _ _))).
  exists "https://example.com", Demo.abort.
  split; [repeat split; discriminate|]. split; [|reflexivity].
  apply (text_rejects _ _ _ (Demo.page (Some "text/html") (Rejected Demo.abort))
           "text/html").
  - split; reflexivity.
  - split; reflexivity.
  - reflexivity.
Defined.
